(** * junixsocket: capability detection of the native layer

    A shallow embedding of [capabilities.c] (junixsocket-native) and of the
    socket-handle life cycle behind the JNI surface declared in
    [org_newsclub_net_unix_NativeUnixSocket.h].

    The C function [Java_org_newsclub_net_unix_NativeUnixSocket_capabilities]
    is straight-line code whose statements are selected by preprocessor
    conditionals.  A build target is therefore modelled as the set of macros
    the preprocessor sees ([Platform]); the function body becomes a
    computation in a small state monad over the translation unit's file-scope
    variables and the calling thread's JNI state. *)

From Stdlib Require Import ZArith Bool List Lia.
Import ListNotations.

Local Open Scope Z_scope.

(** ** C [int] arithmetic (32 bit, two's complement) *)

Module CInt.

Definition int_min : Z := - 2 ^ 31.
Definition int_max : Z := 2 ^ 31 - 1.

Definition in_range (z : Z) : Prop := int_min <= z <= int_max.

(** Reduction of a mathematical integer to its [int] representative. *)
Definition wrap (z : Z) : Z := (z + 2 ^ 31) mod 2 ^ 32 - 2 ^ 31.

(** [a << b] *)
Definition shl (a b : Z) : Z := wrap (Z.shiftl a b).

(** [a | b]; bitwise on the two's-complement representation, which is what
    [Z.lor] computes on [Z]. *)
Definition bor (a b : Z) : Z := wrap (Z.lor a b).

End CInt.

(** ** Build targets

    One field per macro tested by an [#if] of [capabilities.c]; [true] means
    the macro is defined when the file is compiled.  [junixsocket_have_ancillary]
    comes from [config.h], the others from the system headers and the
    compiler. *)

Record Platform : Type := mkPlatform {
  LOCAL_PEERCRED : bool;
  LOCAL_PEEREPID : bool;
  LOCAL_PEEREUUID : bool;
  SO_PEERCRED : bool;
  __NetBSD__ : bool;
  __sun : bool;
  __sun__ : bool;
  junixsocket_have_ancillary : bool;
  __linux__ : bool;
  _WIN32 : bool
}.

(** ** Program state *)

(** The file-scope [static int] variables of [capabilities.c].  They are not
    declared [const], so they are part of the mutable state. *)
Record Statics : Type := mkStatics {
  CAPABILITY_PEER_CREDENTIALS : Z;
  CAPABILITY_ANCILLARY_MESSAGES : Z;
  CAPABILITY_FILE_DESCRIPTORS : Z;
  CAPABILITY_ABSTRACT_NAMESPACE : Z;
  CAPABILITY_DATAGRAMS : Z;
  CAPABILITY_NATIVE_SOCKETPAIR : Z
}.

(** Their initialisers. *)
Definition statics_init : Statics := {|
  CAPABILITY_PEER_CREDENTIALS := CInt.shl 1 0;
  CAPABILITY_ANCILLARY_MESSAGES := CInt.shl 1 1;
  CAPABILITY_FILE_DESCRIPTORS := CInt.shl 1 2;
  CAPABILITY_ABSTRACT_NAMESPACE := CInt.shl 1 3;
  CAPABILITY_DATAGRAMS := CInt.shl 1 4;
  CAPABILITY_NATIVE_SOCKETPAIR := CInt.shl 1 5
|}.

(** JNI handles are opaque references. *)
Inductive JNIEnv : Type := JNIEnv_ptr (addr : Z).
Inductive jclass : Type := jclass_ref (addr : Z).
Inductive jthrowable : Type := jthrowable_ref (addr : Z).
Definition jint : Type := Z.

(** What a native method can observe or change: the statics of its
    translation unit and the exception pending in the calling thread, which
    is how a JNI function reports failure. *)
Record World : Type := mkWorld {
  statics : Statics;
  pending_exception : option jthrowable
}.

(** The world right after the library has been loaded. *)
Definition loaded (exc : option jthrowable) : World :=
  {| statics := statics_init; pending_exception := exc |}.

(** ** A state monad for C statements *)

Definition M (A : Type) : Type := World -> A * World.

Definition ret {A : Type} (a : A) : M A := fun w => (a, w).

Definition bind {A B : Type} (m : M A) (k : A -> M B) : M B :=
  fun w => let (a, w') := m w in k a w'.

Notation "x <- m ;; k" := (bind m (fun x => k))
  (at level 61, m at next level, right associativity).

(** Read of a file-scope variable. *)
Definition load (var : Statics -> Z) : M Z :=
  fun w => (var (statics w), w).

(** [capabilities |= var;] on the local [capabilities]. *)
Definition or_assign (capabilities : Z) (var : Statics -> Z) : M Z :=
  v <- load var ;; ret (CInt.bor capabilities v).

(** [#if cond ... #endif] around statements that update the local. *)
Definition if_defined (cond : bool) (body : Z -> M Z) (capabilities : Z) : M Z :=
  if cond then body capabilities else ret capabilities.

(** ** The native method *)

Definition Java_org_newsclub_net_unix_NativeUnixSocket_capabilities
    (p : Platform) (env : JNIEnv) (clazz : jclass) : M jint :=
  let capabilities := 0 in
  capabilities <-
    if_defined (LOCAL_PEERCRED p || LOCAL_PEEREPID p || LOCAL_PEEREUUID p ||
                SO_PEERCRED p || __NetBSD__ p || __sun p || __sun__ p)
      (fun capabilities =>
         or_assign capabilities CAPABILITY_PEER_CREDENTIALS)
      capabilities ;;
  capabilities <-
    if_defined (junixsocket_have_ancillary p)
      (fun capabilities =>
         capabilities <- or_assign capabilities CAPABILITY_ANCILLARY_MESSAGES ;;
         or_assign capabilities CAPABILITY_FILE_DESCRIPTORS)
      capabilities ;;
  capabilities <-
    if_defined (__linux__ p)
      (fun capabilities =>
         or_assign capabilities CAPABILITY_ABSTRACT_NAMESPACE)
      capabilities ;;
  capabilities <-
    if_defined (negb (_WIN32 p))
      (fun capabilities => or_assign capabilities CAPABILITY_DATAGRAMS)
      capabilities ;;
  capabilities <-
    if_defined (negb (_WIN32 p))
      (fun capabilities =>
         or_assign capabilities CAPABILITY_NATIVE_SOCKETPAIR)
      capabilities ;;
  ret capabilities.

(** The guard of the first conditional block, as written in the file. *)
Definition peer_guard (p : Platform) : bool :=
  LOCAL_PEERCRED p || LOCAL_PEEREPID p || LOCAL_PEEREUUID p ||
  SO_PEERCRED p || __NetBSD__ p || __sun p || __sun__ p.

(** The value a caller gets from the freshly loaded library. *)
Definition capabilities (p : Platform) (env : JNIEnv) (clazz : jclass)
    (exc : option jthrowable) : jint :=
  fst (Java_org_newsclub_net_unix_NativeUnixSocket_capabilities
         p env clazz (loaded exc)).

(** ** The documented contract (spec side)

    These definitions follow the interface description, not the C file: the
    six named capabilities, the bit each one owns, and the platform
    precondition under which each one is available.  They are what the
    native method is compared with. *)

Inductive Capability : Type :=
| PEER_CREDENTIALS
| ANCILLARY_MESSAGES
| FILE_DESCRIPTORS
| ABSTRACT_NAMESPACE
| DATAGRAMS
| NATIVE_SOCKETPAIR.

Definition all_capabilities : list Capability :=
  [PEER_CREDENTIALS; ANCILLARY_MESSAGES; FILE_DESCRIPTORS;
   ABSTRACT_NAMESPACE; DATAGRAMS; NATIVE_SOCKETPAIR].

Definition spec_bit (c : Capability) : Z :=
  match c with
  | PEER_CREDENTIALS => 0
  | ANCILLARY_MESSAGES => 1
  | FILE_DESCRIPTORS => 2
  | ABSTRACT_NAMESPACE => 3
  | DATAGRAMS => 4
  | NATIVE_SOCKETPAIR => 5
  end.

Definition is_NetBSD (p : Platform) : bool := __NetBSD__ p.
Definition is_Solaris (p : Platform) : bool := __sun p || __sun__ p.
Definition is_Linux (p : Platform) : bool := __linux__ p.
Definition is_Windows (p : Platform) : bool := _WIN32 p.

Definition spec_supports (p : Platform) (c : Capability) : bool :=
  match c with
  | PEER_CREDENTIALS =>
      LOCAL_PEERCRED p || LOCAL_PEEREPID p || LOCAL_PEEREUUID p ||
      SO_PEERCRED p || is_NetBSD p || is_Solaris p
  | ANCILLARY_MESSAGES => junixsocket_have_ancillary p
  | FILE_DESCRIPTORS => junixsocket_have_ancillary p
  | ABSTRACT_NAMESPACE => is_Linux p
  | DATAGRAMS => negb (is_Windows p)
  | NATIVE_SOCKETPAIR => negb (is_Windows p)
  end.

(** The OR of the bits of the supported capabilities. *)
Definition spec_capabilities (p : Platform) : Z :=
  fold_right Z.lor 0
    (map (fun c => Z.shiftl 1 (spec_bit c))
         (filter (spec_supports p) all_capabilities)).

(** Sample build targets. *)
Definition linux_glibc : Platform :=
  mkPlatform false false false true false false false true true false.
Definition macos : Platform :=
  mkPlatform true true true false false false false true false false.
Definition windows : Platform :=
  mkPlatform false false false false false false false false false true.
Definition solaris_no_ancillary : Platform :=
  mkPlatform false false false false false true true false false false.

(** ** Callers and build targets, for the further properties *)

(** A caller that invokes the native method once per pair of arguments, one
    call after the other in the same process, and collects the results. *)
Fixpoint call_sequence (p : Platform) (args : list (JNIEnv * jclass))
    : M (list jint) :=
  match args with
  | [] => ret []
  | (env, clazz) :: rest =>
      v <- Java_org_newsclub_net_unix_NativeUnixSocket_capabilities
             p env clazz ;;
      vs <- call_sequence p rest ;;
      ret (v :: vs)
  end.

(** [macros_le p q]: every macro that switches a block of the method on and
    is defined on [p] is defined on [q], and [_WIN32], which switches blocks
    off, is defined on [q] only if it is on [p]. *)
Definition macros_le (p q : Platform) : bool :=
  implb (LOCAL_PEERCRED p) (LOCAL_PEERCRED q) &&
  implb (LOCAL_PEEREPID p) (LOCAL_PEEREPID q) &&
  implb (LOCAL_PEEREUUID p) (LOCAL_PEEREUUID q) &&
  implb (SO_PEERCRED p) (SO_PEERCRED q) &&
  implb (__NetBSD__ p) (__NetBSD__ q) &&
  implb (__sun p) (__sun q) &&
  implb (__sun__ p) (__sun__ q) &&
  implb (junixsocket_have_ancillary p) (junixsocket_have_ancillary q) &&
  implb (__linux__ p) (__linux__ q) &&
  implb (_WIN32 q) (_WIN32 p).

(** A build target read back from a bitmask: SO_PEERCRED for bit 0, the
    ancillary switch for bit 1, Linux for bit 3, Windows unless bit 4. *)
Definition platform_of_mask (v : Z) : Platform :=
  mkPlatform false false false (Z.testbit v 0) false false false
             (Z.testbit v 1) (Z.testbit v 3) (negb (Z.testbit v 4)).

(** ** Socket handle life cycle

    The header [org_newsclub_net_unix_NativeUnixSocket.h] only declares the
    native methods; their bodies are in a C file that is not at hand.  The
    module below is the life-cycle manager as the design document describes
    it. *)

Module Lifecycle.

(** Modelled from the spec: the life-cycle states of a socket handle (the
    state kept by the absent implementation of the declared methods). *)
Inductive State : Type :=
| Unbound
| Bound
| Listening
| Connecting
| Connected
| ShutdownRead
| ShutdownWrite
| ShutdownBoth
| Closed.

(** Modelled from the spec: the error kinds the absent method bodies
    report. *)
Inductive Error : Type :=
| ClosedHandle
| InvalidState
| AddressInUse
| InvalidAddress
| NoSuchAddress
| ConnectionRefused
| Timeout
| Interrupted
| UnsupportedOperation
| UnknownOption
| PartialAncillaryFailure
| IOFailure (native_code : Z).

Inductive Direction : Type := DirRead | DirWrite | DirBoth.

Inductive Address : Type :=
| PathAddress (path : list Byte.byte)
| AbstractAddress (name : list Byte.byte).

Record SocketHandle : Type := mkHandle {
  descriptor : Z;
  state : State;
  local_address : option Address;
  peer_address : option Address;
  listening : bool
}.

(** A request on a handle.  What the operating system answers to the
    underlying call is not decided by this layer, so it travels with the
    request: [None] or [inl] is success, [Some e] or [inr e] the failure
    the system reports. *)
Inductive Op : Type :=
| Bind (address : Address) (os : option Error)
| Listen (backlog : Z)
| Accept (os : Z + Error)
| Connect (address : Address) (os : option Error)
| Read (os : Z + Error)
| Write (os : Z + Error)
| Shutdown (direction : Direction)
| Close (os : option Error).

Inductive Outcome : Type :=
| Done
| Transferred (count : Z)
| Accepted (peer : SocketHandle)
| Failed (e : Error).

Definition is_closed (s : State) : bool :=
  match s with Closed => true | _ => false end.

(** Modelled from the spec: the guard of each operation of the absent
    method bodies, that is, the states the operation is valid from
    ([read] and [write] only from [Connected], [close] from every state but
    [Closed], [shutdown] from [Connected] and, being idempotent per
    direction, from the shutdown states). *)
Definition valid_from (op : Op) (s : State) : bool :=
  match op, s with
  | Bind _ _, Unbound => true
  | Listen _, Bound => true
  | Accept _, Listening => true
  | Connect _ _, (Unbound | Bound) => true
  | (Read _ | Write _), Connected => true
  | Shutdown _, (Connected | ShutdownRead | ShutdownWrite | ShutdownBoth) =>
      true
  | Close _, s => negb (is_closed s)
  | _, _ => false
  end.

(** Modelled from the spec: the explicit state check the absent method
    bodies make before any system call.  [Closed] is absorbing: every
    request on it is answered [ClosedHandle]; a request not valid from
    another state is answered [InvalidState]. *)
Definition check (op : Op) (s : State) : option Error :=
  if is_closed s then Some ClosedHandle
  else if valid_from op s then None
  else Some InvalidState.

(** Modelled from the spec: the state [shutdown] (body absent) moves to,
    the partial or full shutdown state for the direction. *)
Definition after_shutdown (s : State) (d : Direction) : State :=
  match d, s with
  | DirBoth, _ => ShutdownBoth
  | DirRead, (ShutdownWrite | ShutdownBoth) => ShutdownBoth
  | DirRead, _ => ShutdownRead
  | DirWrite, (ShutdownRead | ShutdownBoth) => ShutdownBoth
  | DirWrite, _ => ShutdownWrite
  end.

Definition set_state (h : SocketHandle) (s : State) : SocketHandle :=
  mkHandle (descriptor h) s (local_address h) (peer_address h) (listening h).

Definition is_abstract (a : Address) : bool :=
  match a with AbstractAddress _ => true | PathAddress _ => false end.

(** Modelled from the spec: the implementations of the native methods
    declared in [org_newsclub_net_unix_NativeUnixSocket.h] ([bind],
    [listen], [accept], [connect], [read], [write], [shutdown], [close])
    are not part of the sources at hand; only their prototypes are.  The
    transition function follows the state machine of the life-cycle
    manager: every request is first checked against the current state
    ([ClosedHandle] on a closed handle, [InvalidState] from any other
    state the operation is not valid from), then the system's answer
    decides.  [caps] is the capability bitmask of the platform. *)
Definition step (caps : Z) (h : SocketHandle) (op : Op)
    : Outcome * SocketHandle :=
  match check op (state h) with
  | Some e => (Failed e, h)
  | None =>
      match op with
      | Bind address os =>
          if is_abstract address && negb (Z.testbit caps 3)
          then (Failed InvalidAddress, h)
          else match os with
               | Some e => (Failed e, h)
               | None =>
                   (Done, mkHandle (descriptor h) Bound (Some address)
                                   (peer_address h) (listening h))
               end
      | Listen _ =>
          (Done, mkHandle (descriptor h) Listening (local_address h)
                          (peer_address h) true)
      | Accept os =>
          match os with
          | inr e => (Failed e, h)
          | inl fd =>
              (Accepted (mkHandle fd Connected (local_address h) None false),
               h)
          end
      | Connect address os =>
          match os with
          | Some e => (Failed e, h)
          | None =>
              (Done, mkHandle (descriptor h) Connected (local_address h)
                              (Some address) (listening h))
          end
      | Read os | Write os =>
          match os with
          | inr e => (Failed e, h)
          | inl count => (Transferred count, h)
          end
      | Shutdown direction =>
          (Done, set_state h (after_shutdown (state h) direction))
      | Close _ => (Done, set_state h Closed)
      end
  end.

(** A sequence of requests on one handle; the outcomes are dropped. *)
Fixpoint run (caps : Z) (h : SocketHandle) (ops : list Op) : SocketHandle :=
  match ops with
  | [] => h
  | op :: rest => run caps (snd (step caps h op)) rest
  end.

Definition fresh (fd : Z) : SocketHandle :=
  mkHandle fd Unbound None None false.

End Lifecycle.

(** * Properties of [capabilities] *)

Section CapabilityFacts.

Variable p : Platform.
Variable env : JNIEnv.
Variable clazz : jclass.

Local Abbreviation native :=
  Java_org_newsclub_net_unix_NativeUnixSocket_capabilities.

Ltac by_guards :=
  destruct (LOCAL_PEERCRED p || LOCAL_PEEREPID p || LOCAL_PEEREUUID p ||
            SO_PEERCRED p || __NetBSD__ p || __sun p || __sun__ p),
           (junixsocket_have_ancillary p), (__linux__ p), (_WIN32 p).

(** The method never writes: whatever the world, it hands it back. *)
Lemma native_frame (w : World) : snd (native p env clazz w) = w.
Proof.
  unfold native, if_defined, or_assign, load, bind, ret.
  by_guards; reflexivity.
Qed.

(** Its two parameters are unused. *)
Lemma native_ignores_arguments (env' : JNIEnv) (clazz' : jclass) (w : World) :
  native p env clazz w = native p env' clazz' w.
Proof. reflexivity. Qed.

(** Of the world, the result depends on the file-scope variables only:
    two worlds that agree on them give the same result, whatever exception
    is pending and whatever arguments are passed. *)
Lemma native_reads_only_statics (env' : JNIEnv) (clazz' : jclass)
    (w1 w2 : World) :
  statics w1 = statics w2 ->
  fst (native p env clazz w1) = fst (native p env' clazz' w2).
Proof.
  intro Hst.
  unfold native, if_defined, or_assign, load, bind, ret.
  by_guards; cbn [fst negb]; rewrite ?Hst; reflexivity.
Qed.

(** The result, block by block. *)
Lemma capabilities_value (exc : option jthrowable) :
  capabilities p env clazz exc =
    (if peer_guard p then 1 else 0) +
    (if junixsocket_have_ancillary p then 2 + 4 else 0) +
    (if __linux__ p then 8 else 0) +
    (if _WIN32 p then 0 else 16 + 32).
Proof.
  unfold capabilities, native, peer_guard.
  by_guards; reflexivity.
Qed.

Ltac by_value exc :=
  rewrite (capabilities_value exc); unfold peer_guard;
  by_guards; try reflexivity.

Lemma capabilities_bit0 exc :
  Z.testbit (capabilities p env clazz exc) 0 = peer_guard p.
Proof. by_value exc. Qed.

Lemma capabilities_bit1 exc :
  Z.testbit (capabilities p env clazz exc) 1 = junixsocket_have_ancillary p.
Proof. by_value exc. Qed.

Lemma capabilities_bit2 exc :
  Z.testbit (capabilities p env clazz exc) 2 = junixsocket_have_ancillary p.
Proof. by_value exc. Qed.

Lemma capabilities_bit3 exc :
  Z.testbit (capabilities p env clazz exc) 3 = __linux__ p.
Proof. by_value exc. Qed.

Lemma capabilities_bit4 exc :
  Z.testbit (capabilities p env clazz exc) 4 = negb (_WIN32 p).
Proof. by_value exc. Qed.

Lemma capabilities_bit5 exc :
  Z.testbit (capabilities p env clazz exc) 5 = negb (_WIN32 p).
Proof. by_value exc. Qed.

Lemma capabilities_bounds exc : 0 <= capabilities p env clazz exc <= 63.
Proof. by_value exc; lia. Qed.

Lemma peer_guard_supports : peer_guard p = spec_supports p PEER_CREDENTIALS.
Proof.
  unfold peer_guard, spec_supports, is_NetBSD, is_Solaris.
  now rewrite <- !orb_assoc.
Qed.

(** Every bit of the result is the documented precondition of the
    capability that owns it. *)
Lemma capabilities_bit_of (c : Capability) exc :
  Z.testbit (capabilities p env clazz exc) (spec_bit c) = spec_supports p c.
Proof.
  destruct c; cbn [spec_bit spec_supports];
    unfold is_Linux, is_Windows;
    [ rewrite capabilities_bit0; apply peer_guard_supports
    | apply capabilities_bit1 | apply capabilities_bit2
    | apply capabilities_bit3 | apply capabilities_bit4
    | apply capabilities_bit5 ].
Qed.

(** A number below 64 has no bit at position 6 or above. *)
Lemma high_bits_clear (z n : Z) : 0 <= z <= 63 -> 5 < n -> Z.testbit z n = false.
Proof.
  intros Hz Hn.
  destruct (Z.eq_dec z 0) as [-> | Hnz]; [apply Z.bits_0 |].
  apply Z.bits_above_log2; [lia |].
  assert (Z.log2 z < 6) by (apply Z.log2_lt_pow2; simpl; lia).
  lia.
Qed.

Lemma set_bit_is_capability (n : Z) exc :
  Z.testbit (capabilities p env clazz exc) n = true ->
  exists c, n = spec_bit c.
Proof.
  intros Hbit.
  destruct (Z.lt_ge_cases n 0) as [Hneg | Hpos].
  - rewrite Z.testbit_neg_r in Hbit by assumption. discriminate.
  - destruct (Z.lt_ge_cases 5 n) as [Hhigh | Hlow].
    + rewrite (high_bits_clear _ n (capabilities_bounds exc) Hhigh) in Hbit.
      discriminate.
    + assert (n = 0 \/ n = 1 \/ n = 2 \/ n = 3 \/ n = 4 \/ n = 5)
        as [-> | [-> | [-> | [-> | [-> | ->]]]]] by lia;
        [ exists PEER_CREDENTIALS | exists ANCILLARY_MESSAGES
        | exists FILE_DESCRIPTORS | exists ABSTRACT_NAMESPACE
        | exists DATAGRAMS | exists NATIVE_SOCKETPAIR ]; reflexivity.
Qed.

Lemma spec_capabilities_value :
  spec_capabilities p =
    (if peer_guard p then 1 else 0) +
    (if junixsocket_have_ancillary p then 2 + 4 else 0) +
    (if __linux__ p then 8 else 0) +
    (if _WIN32 p then 0 else 16 + 32).
Proof.
  unfold spec_capabilities, all_capabilities.
  cbn [filter]. rewrite <- peer_guard_supports.
  cbn [spec_supports]. unfold is_Linux, is_Windows, peer_guard.
  by_guards; reflexivity.
Qed.

End CapabilityFacts.

(** C1.  The six file-scope constants hold bit 0 (peer credentials), bit 1
    (ancillary messages), bit 2 (file descriptors), bit 3 (abstract
    namespace), bit 4 (datagrams) and bit 5 (native socketpair); and on every
    build target the value returned by [capabilities] is exactly the OR of
    the bits of the capabilities the target supports: it equals that OR, and
    a bit is set in it if and only if it is the bit of a supported
    capability. *)
Theorem capabilities_is_or_of_supported_bits :
  (CAPABILITY_PEER_CREDENTIALS statics_init = 2 ^ 0 /\
   CAPABILITY_ANCILLARY_MESSAGES statics_init = 2 ^ 1 /\
   CAPABILITY_FILE_DESCRIPTORS statics_init = 2 ^ 2 /\
   CAPABILITY_ABSTRACT_NAMESPACE statics_init = 2 ^ 3 /\
   CAPABILITY_DATAGRAMS statics_init = 2 ^ 4 /\
   CAPABILITY_NATIVE_SOCKETPAIR statics_init = 2 ^ 5) /\
  forall (p : Platform) (env : JNIEnv) (clazz : jclass)
         (exc : option jthrowable),
    capabilities p env clazz exc = spec_capabilities p /\
    forall n : Z,
      Z.testbit (capabilities p env clazz exc) n = true <->
      exists c : Capability, spec_supports p c = true /\ n = spec_bit c.
Proof.
  split.
  - repeat split; reflexivity.
  - intros p env clazz exc. split.
    + rewrite capabilities_value, spec_capabilities_value. reflexivity.
    + intro n. split.
      * intro Hbit.
        destruct (set_bit_is_capability p env clazz n exc Hbit) as [c ->].
        exists c. split; [| reflexivity].
        now rewrite <- (capabilities_bit_of p env clazz c exc).
      * intros [c [Hsup ->]].
        now rewrite capabilities_bit_of.
Qed.

(** C2.  On every build target, if the FILE_DESCRIPTORS bit (bit 2) is set
    in the value returned by [capabilities], the ANCILLARY_MESSAGES bit
    (bit 1) is set as well. *)
Theorem file_descriptors_imply_ancillary_messages :
  forall (p : Platform) (env : JNIEnv) (clazz : jclass)
         (exc : option jthrowable),
    Z.testbit (capabilities p env clazz exc) 2 = true ->
    Z.testbit (capabilities p env clazz exc) 1 = true.
Proof.
  intros p env clazz exc.
  rewrite capabilities_bit1, capabilities_bit2. trivial.
Qed.

Lemma file_descriptors_imply_ancillary_messages_witness :
  Z.testbit (capabilities linux_glibc (JNIEnv_ptr 4096) (jclass_ref 8) None) 2
    = true /\
  Z.testbit (capabilities linux_glibc (JNIEnv_ptr 4096) (jclass_ref 8) None) 1
    = true.
Proof.
  split.
  - reflexivity.
  - apply (file_descriptors_imply_ancillary_messages
             linux_glibc (JNIEnv_ptr 4096) (jclass_ref 8) None).
    reflexivity.
Defined.

(** C3.  [capabilities] is deterministic and free of side effects: on a
    fixed build target, any two calls return the identical bitmask, whatever
    [JNIEnv] and class arguments are passed and whatever else differs
    between the two moments of the process (the pending exception), as long
    as the file-scope variables are the same, which they are since no call
    writes them; each call leaves the world (the file-scope variables and
    the pending exception) as it found it; in particular a second call made
    in the world the first one left returns the same bitmask. *)
Theorem capabilities_deterministic_and_pure :
  forall (p : Platform) (env1 env2 : JNIEnv) (clazz1 clazz2 : jclass)
         (w1 w2 : World),
    statics w1 = statics w2 ->
    let call1 :=
      Java_org_newsclub_net_unix_NativeUnixSocket_capabilities
        p env1 clazz1 w1 in
    let call2 :=
      Java_org_newsclub_net_unix_NativeUnixSocket_capabilities
        p env2 clazz2 w2 in
    let again :=
      Java_org_newsclub_net_unix_NativeUnixSocket_capabilities
        p env2 clazz2 (snd call1) in
    fst call1 = fst call2 /\ snd call1 = w1 /\ snd call2 = w2 /\
    fst call1 = fst again /\ snd again = w1.
Proof.
  intros p env1 env2 clazz1 clazz2 w1 w2 Hst call1 call2 again.
  assert (Hframe1 : snd call1 = w1) by apply native_frame.
  split; [now apply native_reads_only_statics |].
  split; [exact Hframe1 |].
  split; [apply native_frame |].
  unfold again. rewrite Hframe1. split.
  - now apply native_reads_only_statics.
  - apply native_frame.
Qed.

Lemma capabilities_deterministic_and_pure_witness :
  statics (loaded None) = statics (loaded (Some (jthrowable_ref 24))) /\
  fst (Java_org_newsclub_net_unix_NativeUnixSocket_capabilities
         linux_glibc (JNIEnv_ptr 4096) (jclass_ref 8) (loaded None)) =
  fst (Java_org_newsclub_net_unix_NativeUnixSocket_capabilities
         linux_glibc (JNIEnv_ptr 8192) (jclass_ref 16)
         (loaded (Some (jthrowable_ref 24)))).
Proof.
  split; [reflexivity |].
  apply (capabilities_deterministic_and_pure
           linux_glibc (JNIEnv_ptr 4096) (JNIEnv_ptr 8192)
           (jclass_ref 8) (jclass_ref 16)
           (loaded None) (loaded (Some (jthrowable_ref 24)))).
  reflexivity.
Defined.

(** C4.  The PEER_CREDENTIALS bit (bit 0) of the result is set if and only
    if the target defines at least one of LOCAL_PEERCRED, LOCAL_PEEREPID,
    LOCAL_PEEREUUID or SO_PEERCRED, or is NetBSD or Solaris. *)
Theorem peer_credentials_bit :
  forall (p : Platform) (env : JNIEnv) (clazz : jclass)
         (exc : option jthrowable),
    Z.testbit (capabilities p env clazz exc) 0 =
      (LOCAL_PEERCRED p || LOCAL_PEEREPID p || LOCAL_PEEREUUID p ||
       SO_PEERCRED p || is_NetBSD p || is_Solaris p).
Proof.
  intros p env clazz exc.
  rewrite capabilities_bit0. apply peer_guard_supports.
Qed.

(** C5.  The ABSTRACT_NAMESPACE bit (bit 3) of the result is set if and only
    if the target is Linux; on every other target it is unset. *)
Theorem abstract_namespace_bit :
  forall (p : Platform) (env : JNIEnv) (clazz : jclass)
         (exc : option jthrowable),
    Z.testbit (capabilities p env clazz exc) 3 = is_Linux p.
Proof.
  intros p env clazz exc. apply capabilities_bit3.
Qed.

(** C6.  The DATAGRAMS bit (bit 4) and the NATIVE_SOCKETPAIR bit (bit 5) of
    the result are each set on every target except the Windows one, where
    both are unset. *)
Theorem datagrams_and_socketpair_bits :
  forall (p : Platform) (env : JNIEnv) (clazz : jclass)
         (exc : option jthrowable),
    Z.testbit (capabilities p env clazz exc) 4 = negb (is_Windows p) /\
    Z.testbit (capabilities p env clazz exc) 5 = negb (is_Windows p).
Proof.
  intros p env clazz exc. split.
  - apply capabilities_bit4.
  - apply capabilities_bit5.
Qed.

(** C7.  [capabilities] never fails: on every build target and in every
    world the call yields an integer and leaves the world untouched, so no
    exception is raised by it; called on the freshly loaded library the
    integer is a valid [int], and a capability the target lacks shows up as
    a cleared bit of that integer. *)
Theorem capabilities_total_no_error :
  forall (p : Platform) (env : JNIEnv) (clazz : jclass),
    (forall w : World,
       exists v : jint,
         Java_org_newsclub_net_unix_NativeUnixSocket_capabilities
           p env clazz w = (v, w)) /\
    (forall exc : option jthrowable,
       exists v : jint,
         Java_org_newsclub_net_unix_NativeUnixSocket_capabilities
           p env clazz (loaded exc) = (v, loaded exc) /\
         CInt.in_range v /\
         forall c : Capability,
           Z.testbit v (spec_bit c) = true <-> spec_supports p c = true).
Proof.
  intros p env clazz.
  assert (Hrun : forall w,
    Java_org_newsclub_net_unix_NativeUnixSocket_capabilities p env clazz w =
    (fst (Java_org_newsclub_net_unix_NativeUnixSocket_capabilities
            p env clazz w), w)).
  { intro w. rewrite <- (native_frame p env clazz w) at 3.
    apply surjective_pairing. }
  split.
  - intro w. eexists. apply Hrun.
  - intro exc. exists (capabilities p env clazz exc).
    split; [apply Hrun |]. split.
    + pose proof (capabilities_bounds p env clazz exc) as Hb.
      unfold CInt.in_range, CInt.int_min, CInt.int_max. lia.
    + intro c. now rewrite capabilities_bit_of.
Qed.

(** C9.  On every build target the value returned by [capabilities] lies
    between 0 and 63: no bit above bit 5 is set in it. *)
Theorem capabilities_at_most_six_bits :
  forall (p : Platform) (env : JNIEnv) (clazz : jclass)
         (exc : option jthrowable),
    0 <= capabilities p env clazz exc <= 63 /\
    Z.shiftr (capabilities p env clazz exc) 6 = 0 /\
    forall n : Z, 5 < n -> Z.testbit (capabilities p env clazz exc) n = false.
Proof.
  intros p env clazz exc.
  pose proof (capabilities_bounds p env clazz exc) as Hb.
  split; [exact Hb |]. split.
  - rewrite Z.shiftr_div_pow2 by lia.
    apply Z.div_small. simpl. lia.
  - intros n Hn. now apply high_bits_clear.
Qed.

Lemma capabilities_at_most_six_bits_witness :
  0 <= capabilities linux_glibc (JNIEnv_ptr 4096) (jclass_ref 8) None <= 63 /\
  5 < 6 /\
  Z.testbit (capabilities linux_glibc (JNIEnv_ptr 4096) (jclass_ref 8) None) 6
    = false.
Proof.
  destruct (capabilities_at_most_six_bits
              linux_glibc (JNIEnv_ptr 4096) (jclass_ref 8) None)
    as [Hrange [_ Hhigh]].
  split; [exact Hrange |]. split; [lia |].
  apply Hhigh. lia.
Defined.

(** C10.  On every build target the ANCILLARY_MESSAGES bit (bit 1) and the
    FILE_DESCRIPTORS bit (bit 2) of the result are equal: ancillary-message
    support is never reported without file-descriptor passing. *)
Theorem ancillary_and_file_descriptor_bits_equal :
  forall (p : Platform) (env : JNIEnv) (clazz : jclass)
         (exc : option jthrowable),
    Z.testbit (capabilities p env clazz exc) 1 =
    Z.testbit (capabilities p env clazz exc) 2.
Proof.
  intros p env clazz exc.
  now rewrite capabilities_bit1, capabilities_bit2.
Qed.

(** * Properties of the handle life cycle *)

Section LifecycleFacts.

Import Lifecycle.

Variable caps : Z.

(** A rejected request leaves the handle as it was. *)
Lemma rejected_keeps_handle (h : SocketHandle) (op : Op) (e : Error) :
  check op (state h) = Some e -> step caps h op = (Failed e, h).
Proof. intro Hc. unfold step. now rewrite Hc. Qed.

Lemma check_closed (op : Op) : check op Closed = Some ClosedHandle.
Proof. reflexivity. Qed.

(** [Closed] is absorbing. *)
Lemma closed_absorbing (h : SocketHandle) (op : Op) :
  state h = Closed -> state (snd (step caps h op)) = Closed.
Proof.
  intro Hs.
  rewrite (rejected_keeps_handle h op ClosedHandle).
  - exact Hs.
  - rewrite Hs. apply check_closed.
Qed.

Lemma run_closed (ops : list Op) :
  forall h, state h = Closed -> state (run caps h ops) = Closed.
Proof.
  induction ops as [| op rest IH]; intros h Hs; cbn [run].
  - exact Hs.
  - apply IH. now apply closed_absorbing.
Qed.

(** Whatever state the handle is in, it is closed once [close] returns. *)
Lemma close_closes (h : SocketHandle) (os : option Error) :
  state (snd (step caps h (Close os))) = Closed.
Proof.
  destruct (is_closed (state h)) eqn:Hc.
  - apply closed_absorbing. destruct (state h); try discriminate. reflexivity.
  - unfold step, check. rewrite Hc. cbn [valid_from].
    rewrite Hc. reflexivity.
Qed.

Lemma write_on_closed (h : SocketHandle) (os : Z + Error) :
  state h = Closed -> step caps h (Write os) = (Failed ClosedHandle, h).
Proof.
  intro Hs. apply rejected_keeps_handle. rewrite Hs. apply check_closed.
Qed.

End LifecycleFacts.

(** C8.  For every socket handle: a [write] issued while the handle is in
    state [Unbound] fails with [InvalidState]; and once [close] has been
    invoked on the handle, a [write] fails with [ClosedHandle], whatever
    was requested on the handle in between and whatever the operating
    system would have answered. *)
Theorem write_unbound_invalid_closed_rejected :
  forall (caps : Z) (h : Lifecycle.SocketHandle) (os : Z + Lifecycle.Error),
    (Lifecycle.state h = Lifecycle.Unbound ->
     fst (Lifecycle.step caps h (Lifecycle.Write os)) =
       Lifecycle.Failed Lifecycle.InvalidState) /\
    (forall (os_close : option Lifecycle.Error) (later : list Lifecycle.Op),
       fst (Lifecycle.step caps
              (Lifecycle.run caps h (Lifecycle.Close os_close :: later))
              (Lifecycle.Write os)) =
         Lifecycle.Failed Lifecycle.ClosedHandle).
Proof.
  intros caps h os. split.
  - intro Hs.
    rewrite (rejected_keeps_handle caps h _ Lifecycle.InvalidState);
      [reflexivity |].
    rewrite Hs. reflexivity.
  - intros os_close later. cbn [Lifecycle.run].
    rewrite write_on_closed; [reflexivity |].
    apply run_closed, close_closes.
Qed.

Lemma write_unbound_invalid_closed_rejected_witness :
  Lifecycle.state (Lifecycle.fresh 7) = Lifecycle.Unbound /\
  fst (Lifecycle.step 63 (Lifecycle.fresh 7) (Lifecycle.Write (inl 5))) =
    Lifecycle.Failed Lifecycle.InvalidState.
Proof.
  split.
  - reflexivity.
  - apply (write_unbound_invalid_closed_rejected 63 (Lifecycle.fresh 7) (inl 5)).
    reflexivity.
Defined.

(** * Sample runs *)

Example capabilities_linux_glibc :
  capabilities linux_glibc (JNIEnv_ptr 4096) (jclass_ref 8) None = 63.
Proof. reflexivity. Qed.

Example capabilities_macos :
  capabilities macos (JNIEnv_ptr 4096) (jclass_ref 8) None = 55.
Proof. reflexivity. Qed.

Example capabilities_windows :
  capabilities windows (JNIEnv_ptr 4096) (jclass_ref 8) None = 0.
Proof. reflexivity. Qed.

Example capabilities_solaris_no_ancillary :
  capabilities solaris_no_ancillary (JNIEnv_ptr 4096) (jclass_ref 8) None = 49.
Proof. reflexivity. Qed.

Example bind_listen_close_write :
  Lifecycle.step 63
    (Lifecycle.run 63 (Lifecycle.fresh 7)
       [Lifecycle.Bind (Lifecycle.PathAddress []) None;
        Lifecycle.Listen 1;
        Lifecycle.Close None])
    (Lifecycle.Write (inl 5))
  = (Lifecycle.Failed Lifecycle.ClosedHandle,
     Lifecycle.mkHandle 7 Lifecycle.Closed
       (Some (Lifecycle.PathAddress [])) None true).
Proof. reflexivity. Qed.

Example connect_then_write :
  fst (Lifecycle.step 63
         (Lifecycle.run 63 (Lifecycle.fresh 7)
            [Lifecycle.Connect (Lifecycle.PathAddress []) None])
         (Lifecycle.Write (inl 5)))
  = Lifecycle.Transferred 5.
Proof. reflexivity. Qed.

(** * Further properties of [capabilities] *)

Section MoreCapabilityFacts.

Local Abbreviation native :=
  Java_org_newsclub_net_unix_NativeUnixSocket_capabilities.

(** A call, written as the pair of its result and the untouched world. *)
Lemma native_run (p : Platform) (env : JNIEnv) (clazz : jclass) (w : World) :
  native p env clazz w = (fst (native p env clazz w), w).
Proof.
  rewrite <- (native_frame p env clazz w) at 3.
  apply surjective_pairing.
Qed.

Lemma peer_guard_mono (p q : Platform) :
  macros_le p q = true -> implb (peer_guard p) (peer_guard q) = true.
Proof.
  unfold macros_le, peer_guard. rewrite !andb_true_iff.
  intros [[[[[[[[[H1 H2] H3] H4] H5] H6] H7] _] _] _].
  destruct (LOCAL_PEERCRED p), (LOCAL_PEEREPID p), (LOCAL_PEEREUUID p),
           (SO_PEERCRED p), (__NetBSD__ p), (__sun p), (__sun__ p);
    cbn [implb orb] in *; try reflexivity;
    rewrite ?H1, ?H2, ?H3, ?H4, ?H5, ?H6, ?H7, ?orb_true_r; reflexivity.
Qed.

End MoreCapabilityFacts.

(** The method on the build target read back from a mask below 64 whose
    bits 1, 2 and bits 4, 5 agree returns that mask. *)
Lemma platform_of_mask_returns (env : JNIEnv) (clazz : jclass)
    (exc : option jthrowable) (n : nat) :
  (n < 64)%nat ->
  Z.testbit (Z.of_nat n) 1 = Z.testbit (Z.of_nat n) 2 ->
  Z.testbit (Z.of_nat n) 4 = Z.testbit (Z.of_nat n) 5 ->
  capabilities (platform_of_mask (Z.of_nat n)) env clazz exc = Z.of_nat n.
Proof.
  do 64 (destruct n as [| n];
         [ intros _; vm_compute; intros H12 H45;
           first [reflexivity | discriminate] |]).
  intro Hlt. exfalso. lia.
Qed.

(** X1.  The values [capabilities] can return are exactly the sixteen
    masks between 0 and 63 in which bit 1 equals bit 2 and bit 4 equals
    bit 5: every result has this shape, and every mask of this shape is the
    result on some build target. *)
Theorem capabilities_possible_results :
  forall v : Z,
    (exists (p : Platform) (env : JNIEnv) (clazz : jclass)
            (exc : option jthrowable),
       capabilities p env clazz exc = v) <->
    (0 <= v <= 63 /\
     Z.testbit v 1 = Z.testbit v 2 /\
     Z.testbit v 4 = Z.testbit v 5).
Proof.
  intro v. split.
  - intros (p & env & clazz & exc & <-).
    split; [apply capabilities_bounds |]. split.
    + now rewrite capabilities_bit1, capabilities_bit2.
    + now rewrite capabilities_bit4, capabilities_bit5.
  - intros (Hrange & H12 & H45).
    exists (platform_of_mask v), (JNIEnv_ptr 0), (jclass_ref 0), None.
    assert (Hv : v = Z.of_nat (Z.to_nat v)) by lia.
    rewrite Hv in H12, H45 |- *.
    apply platform_of_mask_returns; [lia | assumption | assumption].
Qed.

(** X2.  Defining more of the macros that switch a block on, or no longer
    defining [_WIN32], never takes a capability away: if [macros_le p q]
    then every bit set in the result on [p] is set in the result on [q], and
    the result on [p] is at most the result on [q]. *)
Theorem capabilities_monotone :
  forall (p q : Platform) (env env' : JNIEnv) (clazz clazz' : jclass)
         (exc exc' : option jthrowable),
    macros_le p q = true ->
    Z.land (capabilities p env clazz exc) (capabilities q env' clazz' exc')
      = capabilities p env clazz exc /\
    capabilities p env clazz exc <= capabilities q env' clazz' exc'.
Proof.
  intros p q env env' clazz clazz' exc exc' Hle.
  pose proof (peer_guard_mono p q Hle) as Hg.
  unfold macros_le in Hle. rewrite !andb_true_iff in Hle.
  destruct Hle as [[[_ Ha] Hl] Hw].
  rewrite !capabilities_value.
  destruct (peer_guard p), (peer_guard q),
           (junixsocket_have_ancillary p), (junixsocket_have_ancillary q),
           (__linux__ p), (__linux__ q), (_WIN32 p), (_WIN32 q);
    cbn [implb] in Hg, Ha, Hl, Hw; try discriminate;
    (split; [reflexivity | cbn; lia]).
Qed.

Lemma capabilities_monotone_witness :
  macros_le solaris_no_ancillary
    (mkPlatform false false false false false true true true true false)
    = true /\
  macros_le solaris_no_ancillary linux_glibc = false /\
  Z.land
    (capabilities solaris_no_ancillary (JNIEnv_ptr 4096) (jclass_ref 8) None)
    (capabilities
       (mkPlatform false false false false false true true true true false)
       (JNIEnv_ptr 4096) (jclass_ref 8) None)
  = capabilities solaris_no_ancillary (JNIEnv_ptr 4096) (jclass_ref 8) None /\
  capabilities solaris_no_ancillary (JNIEnv_ptr 4096) (jclass_ref 8) None <=
  capabilities
    (mkPlatform false false false false false true true true true false)
    (JNIEnv_ptr 4096) (jclass_ref 8) None.
Proof.
  split; [reflexivity |]. split; [reflexivity |].
  apply (capabilities_monotone solaris_no_ancillary
           (mkPlatform false false false false false true true true true false)
           (JNIEnv_ptr 4096) (JNIEnv_ptr 4096) (jclass_ref 8) (jclass_ref 8)
           None None).
  reflexivity.
Defined.

(** X3.  The bitmask loses nothing of what the method tested: two build
    targets get the same result if and only if they agree on the guard of
    the peer-credentials block, on [junixsocket_have_ancillary], on
    [__linux__] and on [_WIN32]. *)
Theorem capabilities_equal_iff_same_switches :
  forall (p q : Platform) (env env' : JNIEnv) (clazz clazz' : jclass)
         (exc exc' : option jthrowable),
    capabilities p env clazz exc = capabilities q env' clazz' exc' <->
    (peer_guard p = peer_guard q /\
     junixsocket_have_ancillary p = junixsocket_have_ancillary q /\
     __linux__ p = __linux__ q /\
     _WIN32 p = _WIN32 q).
Proof.
  intros p q env env' clazz clazz' exc exc'.
  rewrite !capabilities_value.
  destruct (peer_guard p), (peer_guard q),
           (junixsocket_have_ancillary p), (junixsocket_have_ancillary q),
           (__linux__ p), (__linux__ q), (_WIN32 p), (_WIN32 q);
    cbn; split;
    solve [ intro H; first [discriminate H | repeat split]
          | intros (H1 & H2 & H3 & H4);
            first [discriminate | reflexivity] ].
Qed.

(** X4.  The extreme results.  [capabilities] returns 0 exactly on a target
    that defines [_WIN32] and none of the other tested macros, and 63
    exactly on a target without [_WIN32] that passes the other three guards;
    a result of at least 48 tells a target without [_WIN32] from one with
    it. *)
Theorem capabilities_extremes :
  forall (p : Platform) (env : JNIEnv) (clazz : jclass)
         (exc : option jthrowable),
    (capabilities p env clazz exc = 0 <->
     peer_guard p = false /\ junixsocket_have_ancillary p = false /\
     __linux__ p = false /\ _WIN32 p = true) /\
    (capabilities p env clazz exc = 63 <->
     peer_guard p = true /\ junixsocket_have_ancillary p = true /\
     __linux__ p = true /\ _WIN32 p = false) /\
    (48 <=? capabilities p env clazz exc) = negb (_WIN32 p).
Proof.
  intros p env clazz exc.
  rewrite !capabilities_value.
  destruct (peer_guard p), (junixsocket_have_ancillary p),
           (__linux__ p), (_WIN32 p);
    cbn; repeat split;
    solve [ reflexivity
          | discriminate
          | intros (H1 & H2 & H3 & H4); discriminate ].
Qed.

(** X5.  Any number of calls made one after the other, with whatever
    [JNIEnv] and class arguments, all return the value a single call
    returns in the starting world, and the world after the last call is the
    starting world. *)
Theorem call_sequence_constant :
  forall (p : Platform) (env0 : JNIEnv) (clazz0 : jclass)
         (args : list (JNIEnv * jclass)) (w : World),
    call_sequence p args w =
      (repeat
         (fst (Java_org_newsclub_net_unix_NativeUnixSocket_capabilities
                 p env0 clazz0 w))
         (length args),
       w).
Proof.
  intros p env0 clazz0 args w.
  induction args as [| [env clazz] rest IH]; cbn [call_sequence length repeat].
  - reflexivity.
  - unfold bind at 1. rewrite (native_run p env clazz w).
    unfold bind at 1. rewrite IH. unfold ret.
    now rewrite (native_ignores_arguments p env clazz env0 clazz0 w).
Qed.
